(** * AxiosHttpClient: failure classification and retry, checked against the code

    A shallow embedding of [src/axios-http-client.ts].  The client wraps an
    axios instance; [send] issues one call on it and, when the call is
    rejected, [rethrowError] turns the rejection into one of the typed errors
    of the taxonomy.  JavaScript exceptions become an explicit completion
    ([Normal] or [Throw]); the logger, the custom error handler and the
    transport are observed through a list of events. *)

From Stdlib Require Import ZArith String List Lia Floats.PrimFloat.
From stdpp Require Import base gmap strings.
Import ListNotations.
Set Warnings "-register-all".
Local Open Scope Z_scope.

(** ** JavaScript values *)

(** A response body as axios hands it over: the parsed JSON document, or the
    raw text when the payload is not JSON.  Numbers are IEEE 754 doubles.  An
    object is the list of its properties, each key listed once. *)
Inductive JsValue :=
| JUndefined
| JNull
| JBool (b : bool)
| JNum (x : float)
| JStr (s : string)
| JArr (items : list JsValue)
| JObj (props : list (string * JsValue)).

(** Own-property lookup in an object; a missing key reads as [undefined]. *)
Fixpoint lookup_prop (key : string) (props : list (string * JsValue)) : JsValue :=
  match props with
  | [] => JUndefined
  | (k, v) :: rest => if String.eqb k key then v else lookup_prop key rest
  end.

(** [(v as any)?.key] for the keys the client reads ([name], [message]):
    [undefined] and [null] short-circuit, and neither a primitive nor an array
    carries such a property. *)
Definition opt_get (key : string) (v : JsValue) : JsValue :=
  match v with
  | JObj props => lookup_prop key props
  | _ => JUndefined
  end.

(** [typeof v === 'string' ? v : ''] *)
Definition string_or_empty (v : JsValue) : string :=
  match v with
  | JStr s => s
  | _ => EmptyString
  end.

(** [a ?? b] on optional strings. *)
Definition nullish (a b : option string) : option string :=
  match a with
  | Some s => Some s
  | None => b
  end.

(** [message?.startsWith(p)], used as a condition: an absent message is falsy. *)
Definition startsWith (p : string) (message : option string) : bool :=
  match message with
  | Some s => String.prefix p s
  | None => false
  end.

(** [message === s] *)
Definition message_is (s : string) (message : option string) : bool :=
  match message with
  | Some m => String.eqb m s
  | None => false
  end.

(** ** Errors *)

Record AxiosResponse := {
  status : Z;
  headers : list (string * string);
  data : JsValue
}.

(** The fields of an axios error that the client reads.  [response] is absent
    when no response was received. *)
Record AxiosError := {
  message : option string;
  code : option string;
  stack : option string;
  response : option AxiosResponse
}.

(** Modelled from the spec: the error classes of the taxonomy of section 3
    belong to the package [@ultrasa/dev-kit], which is not among the sources.
    An instance carries the message it was constructed with and nothing else,
    so [new C(message)] is [ErrorObj C message] below. *)
Inductive ErrorClass :=
| TimeoutError
| NetworkError
| UnauthenticatedError
| EndpointNotFoundError
| IllegalArgumentError
| PlainError                      (* [Error] itself *)
| OtherClass (name : string).     (* a class of the caller, or axios's [Cancel] *)

(** The values of JavaScript that are no objects. *)
Inductive JsPrimitive :=
| PUndefined
| PNull
| PBool (b : bool)
| PNum (x : float)
| PStr (s : string).

(** What a rejected call carries, the [err: any] of the catch block: an
    object whose [isAxiosError] is true, an object without that flag that has
    a class and a message ([None] when it was constructed with [undefined]),
    or a value that is no object. *)
Inductive JsError :=
| AxiosErr (e : AxiosError)
| ErrorObj (cls : ErrorClass) (msg : option string)
| Primitive (p : JsPrimitive).

(** Anything a [throw] statement can raise.  [EngineTypeError] is the
    [TypeError] of the engine for reading a property of [null] or of
    [undefined]; its text is the engine's own. *)
Inductive Thrown :=
| ThrownError (e : JsError)
| ThrownValue (v : JsValue)
| EngineTypeError (property : string).

Inductive Completion (E A : Type) :=
| Normal (a : A)
| Throw (e : E).
Arguments Normal {E A} a.
Arguments Throw {E A} e.

(** ** Requests *)

Record AbortSignal := { aborted : bool }.

Definition Query := list (string * string).

Record HttpRequest := {
  req_method : string;
  req_url : string;
  req_baseUrl : option string;
  req_headers : option (list (string * string));
  req_query : option Query;
  req_body : JsValue;
  req_timeout : option Z;
  req_signal : option AbortSignal
}.

Record HttpResponse := { body : JsValue }.

Record AxiosRequestConfig := {
  params : Query;
  signal : option AbortSignal;
  timeout : option Z;
  baseURL : option string;
  cfg_headers : option (list (string * string))
}.

(** One call on the axios instance: [instance.get(url, config)],
    [instance.post(url, data, config)] and so on. *)
Record AxiosCall := {
  call_method : string;
  call_url : string;
  call_data : option JsValue;
  call_config : AxiosRequestConfig
}.

(** ** Effects *)

Inductive Event :=
| LogDebug (text : string)
| LogWarn (text : string)
| HandlerCall (status : Z) (body : JsValue)
| TransportAttempt (attemptIndex : nat) (call : AxiosCall).

(** A computation emits events and completes normally or by throwing. *)
Definition M (E A : Type) : Type := list Event * Completion E A.

Definition events {E A} (m : M E A) : list Event := fst m.

Definition raised {E A} (m : M E A) : option E :=
  match snd m with
  | Throw e => Some e
  | Normal _ => None
  end.

Definition returned {E A} (m : M E A) : option A :=
  match snd m with
  | Normal a => Some a
  | Throw _ => None
  end.

#[global] Instance M_ret {E} : MRet (M E) := fun A a => ([], Normal a).

#[global] Instance M_bind {E} : MBind (M E) := fun A B f m =>
  match m with
  | (evs, Normal a) => let '(evs', r) := f a in (evs ++ evs', r)
  | (evs, Throw e) => (evs, Throw e)
  end.

#[global] Instance M_throw {E} : MThrow E (M E) := fun A e => ([], Throw e).

Definition emit {E} (ev : Event) : M E unit := ([ev], Normal tt).

(** [try { m } catch (err) { h err }] *)
Definition try_catch {E E' A} (m : M E A) (h : E -> M E' A) : M E' A :=
  match m with
  | (evs, Normal a) => (evs, Normal a)
  | (evs, Throw e) => let '(evs', r) := h e in (evs ++ evs', r)
  end.

Fixpoint count_attempts (evs : list Event) : nat :=
  match evs with
  | [] => 0%nat
  | TransportAttempt _ _ :: rest => S (count_attempts rest)
  | _ :: rest => count_attempts rest
  end.

Fixpoint handler_calls (evs : list Event) : list (Z * JsValue) :=
  match evs with
  | [] => []
  | HandlerCall s b :: rest => (s, b) :: handler_calls rest
  | _ :: rest => handler_calls rest
  end.

(** ** The client and its collaborators *)

Definition Interceptor := AxiosRequestConfig -> Completion Thrown AxiosRequestConfig.

Inductive RetryDelay := noDelay | exponentialDelay.

(** The options handed to [axiosRetry]. *)
Record AxiosRetryConfig := {
  retries : Z;
  retryDelay : RetryDelay
}.

(** An axios instance, as far as the client configures it: the defaults given
    to [axios.create], the request interceptors registered on it and the retry
    behaviour installed on it, if any. *)
Record AxiosInstance := {
  defaults_baseURL : option string;
  defaults_timeout : option Z;
  request_interceptors : list Interceptor;
  retry : option AxiosRetryConfig
}.

(** [axios.create({ baseURL, timeout })] *)
Definition axios_create (baseURL : option string) (timeout : option Z) : AxiosInstance :=
  {| defaults_baseURL := baseURL;
     defaults_timeout := timeout;
     request_interceptors := [];
     retry := None |}.

(** [instance.interceptors.request.use(interceptor)] *)
Definition interceptors_request_use (inst : AxiosInstance) (interceptor : Interceptor) : AxiosInstance :=
  {| defaults_baseURL := defaults_baseURL inst;
     defaults_timeout := defaults_timeout inst;
     request_interceptors := request_interceptors inst ++ [interceptor];
     retry := retry inst |}.

(** [axiosRetry(instance, config)] *)
Definition axiosRetry (inst : AxiosInstance) (config : AxiosRetryConfig) : AxiosInstance :=
  {| defaults_baseURL := defaults_baseURL inst;
     defaults_timeout := defaults_timeout inst;
     request_interceptors := request_interceptors inst;
     retry := Some config |}.

(** [ReadonlyArray<Interceptor> | Interceptor] *)
Inductive InterceptorsProp :=
| OneInterceptor (interceptor : Interceptor)
| InterceptorArray (interceptors : list Interceptor).

Record AxiosHttpClientProps := {
  instance : option AxiosInstance;
  baseUrl : option string;
  props_timeout : option Z;
  interceptors : option InterceptorsProp;
  maximumRetry : option Z
}.

(** [(status, body) => void]: the handler throws, or it returns some value. *)
Definition Handler := Z -> JsValue -> Completion Thrown Thrown.

(** [new (message: string) => Error] *)
Definition ErrorConstructor := string -> JsError.

Record ErrorConstructors := {
  serviceErrorConstructor : option ErrorConstructor;
  errorNameToConstructor : option (gmap string ErrorConstructor)
}.

Record AxiosHttpClient := {
  httpClient : AxiosInstance;
  errorHandler : option Handler;
  errorConstructors : option ErrorConstructors
}.

(** The two variants that [configure] accepts. *)
Inductive Configuration :=
| HttpErrorHandler (handler : Handler)
| ErrorConstructorConfig (errorNameToConstructor : option (gmap string ErrorConstructor))
                         (serviceErrorConstructor : option ErrorConstructor).

Definition constructor (props : AxiosHttpClientProps) : AxiosHttpClient :=
  let httpClient :=
    match instance props with
    | Some inst => inst
    | None =>
        let created := axios_create (baseUrl props) (props_timeout props) in
        let intercepted :=
          match interceptors props with
          | Some given =>
              let interceptors :=
                match given with
                | InterceptorArray l => l
                | OneInterceptor i => [i]
                end in
              fold_left interceptors_request_use interceptors created
          | None => created
          end in
        match maximumRetry props with
        | Some n =>
            if 0 <? n
            then axiosRetry intercepted {| retries := n; retryDelay := exponentialDelay |}
            else intercepted
        | None => intercepted
        end
    end in
  {| httpClient := httpClient; errorHandler := None; errorConstructors := None |}.

Definition configure (this : AxiosHttpClient) (config : Configuration) : AxiosHttpClient :=
  match config with
  | HttpErrorHandler handler =>
      {| httpClient := httpClient this;
         errorHandler := Some handler;
         errorConstructors := errorConstructors this |}
  | ErrorConstructorConfig byName service =>
      {| httpClient := httpClient this;
         errorHandler := errorHandler this;
         errorConstructors :=
           Some {| errorNameToConstructor := byName; serviceErrorConstructor := service |} |}
  end.

(** Modelled from the spec: the type [UltrasaErrorBody] of
    [@ultrasa/dev-kit], the envelope of a first-party error of section 6: a
    name and a message, both strings. *)
Record UltrasaErrorBody := {
  env_name : string;
  env_message : string
}.

(** Modelled from the spec: the type guard [isUltrasaErrorBody] belongs to
    [@ultrasa/dev-kit] and is not among the sources.  By section 6 a
    first-party envelope is a JSON object with a string [name] and a string
    [message], and no other shape is one.  [asUltrasaErrorBody] is the guard
    together with the narrowed view of the body that TypeScript grants after
    it. *)
Definition asUltrasaErrorBody (body : JsValue) : option UltrasaErrorBody :=
  match body with
  | JObj props =>
      match lookup_prop "name" props, lookup_prop "message" props with
      | JStr n, JStr m => Some {| env_name := n; env_message := m |}
      | _, _ => None
      end
  | _ => None
  end.

(** Modelled from the spec: the guard [isUltrasaErrorBody] as a condition. *)
Definition isUltrasaErrorBody (body : JsValue) : bool :=
  match asUltrasaErrorBody body with
  | Some _ => true
  | None => false
  end.

(** What [send] resolves with.  [rethrowError] is declared [never]; were it to
    return, the catch block would end and the promise would resolve with
    [undefined]. *)
Inductive Resolved :=
| Response (r : HttpResponse)
| FellThrough.

Definition supported (method : string) : bool :=
  String.eqb method "GET" || String.eqb method "DELETE" || String.eqb method "POST"
  || String.eqb method "PUT" || String.eqb method "PATCH".

Definition throw {A} (e : JsError) : M Thrown A := mthrow (ThrownError e).

(** [throw handler(status, body)]: whatever the handler throws propagates,
    and whatever it returns is thrown. *)
Definition throw_handler_result {A} (handler : Handler) (status : Z) (body : JsValue)
  : M Thrown A :=
  emit (HandlerCall status body);;
  match handler status body with
  | Normal v => mthrow v
  | Throw t => mthrow t
  end.

Definition rethrowError (this : AxiosHttpClient) (error : JsError) : M Thrown unit :=
  match error with
  | AxiosErr axiosError =>
      let body :=
        match response axiosError with
        | Some r => data r
        | None => JUndefined
        end in
      match response axiosError with
      | None =>
          if startsWith "timeout" (message axiosError) then
            emit (LogWarn (default EmptyString (stack axiosError)));;
            throw (ErrorObj TimeoutError (message axiosError))
          else
            let message := nullish (message axiosError) (code axiosError) in
            throw (ErrorObj NetworkError message)
      | Some resp =>
          match errorHandler this with
          | Some handler => throw_handler_result handler (status resp) body
          | None =>
              match asUltrasaErrorBody body with
              | Some env =>
                  match errorConstructors this ≫= errorNameToConstructor with
                  | Some byName =>
                      emit (LogWarn ("Received service error " +:+ env_name env +:+ ": "
                                     +:+ env_message env));;
                      match byName !! env_name env with
                      | Some constructor => throw (constructor (env_message env))
                      | None => mret tt
                      end
                  | None => mret tt
                  end;;
                  match errorConstructors this ≫= serviceErrorConstructor with
                  | Some service =>
                      emit (LogWarn ("Received service error but no error constructor it provided. "
                                     +:+ env_name env +:+ ": " +:+ env_message env));;
                      throw (service (env_name env +:+ ": " +:+ env_message env))
                  | None =>
                      emit (LogWarn ("Received service error but no service error constructor it provided. "
                                     +:+ env_name env +:+ ": " +:+ env_message env));;
                      throw (ErrorObj PlainError (Some (env_name env +:+ ": " +:+ env_message env)))
                  end
              | None =>
                  if status resp =? 403 then
                    emit (LogWarn (default EmptyString (stack axiosError)));;
                    let message := opt_get "message" (data resp) in
                    throw (ErrorObj UnauthenticatedError (Some (string_or_empty message)))
                  else if status resp =? 404 then
                    emit (LogWarn (default EmptyString (stack axiosError)));;
                    let message := opt_get "message" (data resp) in
                    throw (ErrorObj EndpointNotFoundError (Some (string_or_empty message)))
                  else
                    throw error
              end
          end
      end
  | ErrorObj _ msg =>
      if message_is "canceled" msg
      then throw (ErrorObj NetworkError msg)
      else throw error
  | Primitive PUndefined | Primitive PNull =>
      (* [error.isAxiosError], read without [?.] *)
      mthrow (EngineTypeError "isAxiosError")
  | Primitive _ =>
      (* no [isAxiosError] and no [message] on a boolean, a number or a string *)
      throw error
  end.


Section Send.

(** [new URLSearchParams(query).toString()], a function of the platform. *)
Variable URLSearchParams_toString : option Query -> string.

(** How the axios library runs one call on an instance: the events of the
    run, and the response it resolves with or the error it rejects with. *)
Variable axios_request : AxiosInstance -> AxiosCall -> M JsError AxiosResponse.

Definition get (inst : AxiosInstance) (url : string) (config : AxiosRequestConfig) :=
  axios_request inst
    {| call_method := "GET"; call_url := url; call_data := None; call_config := config |}.

Definition delete (inst : AxiosInstance) (url : string) (config : AxiosRequestConfig) :=
  axios_request inst
    {| call_method := "DELETE"; call_url := url; call_data := None; call_config := config |}.

Definition post (inst : AxiosInstance) (url : string) (data : JsValue)
    (config : AxiosRequestConfig) :=
  axios_request inst
    {| call_method := "POST"; call_url := url; call_data := Some data; call_config := config |}.

Definition put (inst : AxiosInstance) (url : string) (data : JsValue)
    (config : AxiosRequestConfig) :=
  axios_request inst
    {| call_method := "PUT"; call_url := url; call_data := Some data; call_config := config |}.

Definition patch (inst : AxiosInstance) (url : string) (data : JsValue)
    (config : AxiosRequestConfig) :=
  axios_request inst
    {| call_method := "PATCH"; call_url := url; call_data := Some data; call_config := config |}.

(** The axios configuration that [send] builds; the query is copied. *)
Definition request_config (request : HttpRequest) : AxiosRequestConfig :=
  {| params := default [] (req_query request);
     signal := req_signal request;
     timeout := req_timeout request;
     baseURL := req_baseUrl request;
     cfg_headers := req_headers request |}.

Definition send (this : AxiosHttpClient) (request : HttpRequest) : M Thrown Resolved :=
  emit (LogDebug ("Send request to " +:+ req_url request +:+ "?"
                  +:+ URLSearchParams_toString (req_query request) +:+ "."));;
  let config := request_config request in
  try_catch
    (if String.eqb (req_method request) "GET" then
       resp ← get (httpClient this) (req_url request) config;
       mret (Response {| body := data resp |})
     else if String.eqb (req_method request) "DELETE" then
       resp ← delete (httpClient this) (req_url request) config;
       mret (Response {| body := data resp |})
     else if String.eqb (req_method request) "POST" then
       resp ← post (httpClient this) (req_url request) (req_body request) config;
       mret (Response {| body := data resp |})
     else if String.eqb (req_method request) "PUT" then
       resp ← put (httpClient this) (req_url request) (req_body request) config;
       mret (Response {| body := data resp |})
     else if String.eqb (req_method request) "PATCH" then
       resp ← patch (httpClient this) (req_url request) (req_body request) config;
       mret (Response {| body := data resp |})
     else
       mthrow (ErrorObj IllegalArgumentError
                 (Some ("Invalid method " +:+ req_method request +:+ "."))))
    (fun err =>
       emit (LogDebug ("Received failure when sending request to " +:+ req_url request
                       +:+ "?" +:+ URLSearchParams_toString (req_query request)));;
       rethrowError this err;;
       mret FellThrough).

(** The call that [send] places for a request whose method it supports. *)
Definition request_call (request : HttpRequest) : AxiosCall :=
  {| call_method := req_method request;
     call_url := req_url request;
     call_data :=
       if String.eqb (req_method request) "GET" || String.eqb (req_method request) "DELETE"
       then None
       else Some (req_body request);
     call_config := request_config request |}.

End Send.

(** ** Retrying

    The retry behaviour is the one of the package [axios-retry], which is not
    among the sources: the constructor only installs it.  The definitions of
    this part follow the spec instead: the attempt outcomes of section 3, the
    retry policy of section 4.2 and the attempt loop of the dispatcher of
    section 4.1.  The waiting between attempts is real time and has no
    counterpart here. *)

(** Modelled from the spec: the kinds of transport failure of section 3;
    [axios-retry] and the transport are not among the sources. *)
Inductive FailureKind :=
| ConnectionRefusedOrReset
| Timeout
| Cancelled
| OtherNetwork.

(** Modelled from the spec: the outcome of one attempt, the tagged union of
    section 3. *)
Inductive AttemptOutcome :=
| Success (status : Z) (headers : list (string * string)) (body : JsValue)
| TransportFailure (kind : FailureKind) (message : option string)
| ApplicationError (status : Z) (headers : list (string * string)) (body : JsValue).

(** Modelled from the spec: one attempt of a call, the transport capability of
    section 6.  The attempt of a given index resolves with a response or
    rejects with an error, which carries the response when one was received
    with a failure status. *)
Definition Transport := AxiosInstance -> AxiosCall -> nat -> Completion JsError AxiosResponse.

(** Modelled from the spec: the kind of a failure that carries no response,
    told apart the way [rethrowError] tells them apart. *)
Definition failure_kind (message code : option string) : FailureKind :=
  if startsWith "timeout" message then Timeout
  else if message_is "canceled" message then Cancelled
  else if message_is "ECONNREFUSED" code || message_is "ECONNRESET" code
       then ConnectionRefusedOrReset
  else OtherNetwork.

(** Modelled from the spec: how a resolved or rejected attempt reads as an
    outcome of section 3. *)
Definition outcome_of (c : Completion JsError AxiosResponse) : AttemptOutcome :=
  match c with
  | Normal resp => Success (status resp) (headers resp) (data resp)
  | Throw (AxiosErr e) =>
      match response e with
      | Some resp => ApplicationError (status resp) (headers resp) (data resp)
      | None => TransportFailure (failure_kind (message e) (code e))
                                 (nullish (message e) (code e))
      end
  | Throw (ErrorObj _ msg) => TransportFailure (failure_kind msg None) msg
  | Throw (Primitive _) => TransportFailure OtherNetwork None
  end.

(** Modelled from the spec: the idempotent methods of section 3. *)
Definition idempotent (method : string) : bool :=
  String.eqb method "GET" || String.eqb method "HEAD" || String.eqb method "OPTIONS"
  || String.eqb method "PUT" || String.eqb method "DELETE".

(** Modelled from the spec: the retry policy of section 4.2. *)
Definition shouldRetry (maximumRetry : Z) (method : string) (attemptIndex : nat)
    (outcome : AttemptOutcome) : bool :=
  if maximumRetry <=? Z.of_nat attemptIndex then false
  else if negb (idempotent method) then false
  else
    match outcome with
    | TransportFailure ConnectionRefusedOrReset _ => true
    | TransportFailure OtherNetwork _ => true
    | TransportFailure _ _ => false
    | ApplicationError status _ _ => (500 <=? status) && (status <? 600)
    | Success _ _ _ => false
    end.

(** Modelled from the spec: the attempts of one call, section 4.1.  A success
    returns at once; a failure is retried when the policy says so, and is the
    terminal outcome otherwise.  [remaining] is the number of retries left.
    The loop describes a call from its first attempt on: it consults neither
    the cancellation token nor the request interceptors, so a call that one of
    them ends before any attempt (section 9) is outside of it; a token that
    fires during an attempt shows as the outcome of that attempt. *)
Fixpoint attempt_loop (net : Transport) (inst : AxiosInstance) (call : AxiosCall)
    (maximumRetry : Z) (remaining : nat) (attemptIndex : nat) : M JsError AxiosResponse :=
  emit (TransportAttempt attemptIndex call);;
  match net inst call attemptIndex with
  | Normal resp => mret resp
  | Throw err =>
      if shouldRetry maximumRetry (call_method call) attemptIndex (outcome_of (Throw err))
      then
        match remaining with
        | S fewer => attempt_loop net inst call maximumRetry fewer (S attemptIndex)
        | O => mthrow err
        end
      else mthrow err
  end.

(** Modelled from the spec: a call on an instance that gets as far as its
    first attempt (see [attempt_loop]).  Without retry behaviour installed
    there is one attempt; with it, the loop starts with the configured number of
    retries. *)
Definition axios_dispatch (net : Transport) (inst : AxiosInstance) (call : AxiosCall)
  : M JsError AxiosResponse :=
  match retry inst with
  | Some config =>
      attempt_loop net inst call (retries config) (Z.to_nat (retries config)) 0
  | None => attempt_loop net inst call 0 0 0
  end.

(** [send] on a client whose axios instance runs over the transport [net]. *)
Definition send_over (toString : option Query -> string) (net : Transport)
    (this : AxiosHttpClient) (request : HttpRequest) : M Thrown Resolved :=
  send toString (axios_dispatch net) this request.

(** ** Vocabulary of the statements *)

(** The call that [send] places for [request] is rejected with [err]. *)
Definition rejected (axios_request : AxiosInstance -> AxiosCall -> M JsError AxiosResponse)
    (this : AxiosHttpClient) (request : HttpRequest) (err : JsError) : Prop :=
  supported (req_method request) = true
  /\ snd (axios_request (httpClient this) (request_call request)) = Throw err.

(** The constructor that the configured mapping holds for an error name. *)
Definition constructor_for (this : AxiosHttpClient) (name : string) : option ErrorConstructor :=
  byName ← errorConstructors this ≫= errorNameToConstructor;
  byName !! name.

(** The configured fallback, the generic service error constructor. *)
Definition fallback_constructor (this : AxiosHttpClient) : option ErrorConstructor :=
  errorConstructors this ≫= serviceErrorConstructor.

(** The rejection of a cancelled attempt: no response, and the message
    "canceled", on an axios error or on an object that is none. *)
Definition cancellation (err : JsError) : Prop :=
  match err with
  | AxiosErr e => response e = None /\ message e = Some "canceled"%string
  | ErrorObj _ msg => msg = Some "canceled"%string
  | Primitive _ => False
  end.

(** A failure in which no response was received. *)
Definition no_response (err : JsError) : Prop :=
  match err with
  | AxiosErr e => response e = None
  | ErrorObj _ _ => True
  | Primitive _ => True
  end.


(** The retries that an instance is set up to make. *)
Definition installed_retries (inst : AxiosInstance) : Z :=
  match retry inst with
  | Some config => retries config
  | None => 0
  end.


(** The two debug lines of [send]. *)
Definition started (toString : option Query -> string) (request : HttpRequest) : Event :=
  LogDebug ("Send request to " +:+ req_url request +:+ "?"
            +:+ toString (req_query request) +:+ ".").

Definition failed (toString : option Query -> string) (request : HttpRequest) : Event :=
  LogDebug ("Received failure when sending request to " +:+ req_url request
            +:+ "?" +:+ toString (req_query request)).

(** The events of [count] attempts in a row, from attempt [first] on. *)
Definition attempt_events (call : AxiosCall) (first count : nat) : list Event :=
  map (fun k => TransportAttempt k call) (seq first count).

(** ** Sample data *)

(** A serialisation of the query for the samples, without escaping. *)
Definition sample_toString (query : option Query) : string :=
  String.concat "&" (map (fun kv => fst kv +:+ "=" +:+ snd kv) (default [] query)).

Definition sample_request (method : string) : HttpRequest :=
  {| req_method := method;
     req_url := "/test";
     req_baseUrl := None;
     req_headers := Some [("Authorization", "Bearer 123")];
     req_query := None;
     req_body := JUndefined;
     req_timeout := None;
     req_signal := None |}.

Definition sample_props (maximumRetry : option Z) : AxiosHttpClientProps :=
  {| instance := None;
     baseUrl := Some "http://localhost:23324";
     props_timeout := None;
     interceptors := None;
     maximumRetry := maximumRetry |}.

Definition sample_response (status : Z) (data : JsValue) : AxiosResponse :=
  {| status := status;
     headers := [("content-type", "application/json")];
     data := data |}.

(** The error axios rejects with when a response has a failure status. *)
Definition sample_failure (status : Z) (data : JsValue) : AxiosError :=
  {| message := Some "Request failed";
     code := Some "ERR_BAD_RESPONSE";
     stack := None;
     response := Some (sample_response status data) |}.

Definition sample_timeout : AxiosError :=
  {| message := Some "timeout of 500ms exceeded";
     code := Some "ECONNABORTED";
     stack := None;
     response := None |}.

Definition sample_canceled : AxiosError :=
  {| message := Some "canceled";
     code := Some "ERR_CANCELED";
     stack := None;
     response := None |}.

(** The envelope of [new SystemError("mockErrorMessage")]. *)
Definition sample_envelope : JsValue :=
  JObj [("name", JStr "SystemError"); ("message", JStr "mockErrorMessage")].

(** A transport that gives every attempt the same outcome. *)
Definition sample_net (outcome : Completion JsError AxiosResponse) : Transport :=
  fun _ _ _ => outcome.

(** A transport that fails with status 500 and, at attempt [k], is cancelled. *)
Definition sample_net_cancel_at (k : nat) : Transport :=
  fun _ _ attemptIndex =>
    if Nat.eqb attemptIndex k
    then Throw (AxiosErr sample_canceled)
    else Throw (AxiosErr (sample_failure 500 JNull)).

Definition sample_handler : Handler :=
  fun status body => Throw (ThrownError (ErrorObj (OtherClass "ThirdPartyError")
                                                  (Some "mockErrorMessage"))).

Definition sample_constructors : Configuration :=
  ErrorConstructorConfig
    (Some (<["SystemError" := ErrorObj NetworkError ∘ Some]> ∅))
    (Some (fun _ => ErrorObj (OtherClass "MockServiceError") (Some "mockErrorMessage"))).

(** A transport that answers 500 to the first [failures] attempts and 200 to
    the later ones. *)
Definition sample_net_recovering (failures : nat) : Transport :=
  fun _ _ attemptIndex =>
    if Nat.ltb attemptIndex failures
    then Throw (AxiosErr (sample_failure 500 (JObj [("success", JBool false)])))
    else Normal (sample_response 200 (JObj [("success", JBool true)])).


(** ** Vocabulary of the further properties *)

(** A run of [configure] calls, in order. *)
Definition configure_all (this : AxiosHttpClient) (configs : list Configuration)
  : AxiosHttpClient :=
  fold_left configure configs this.

(** The handlers among a run of configurations, in order. *)
Fixpoint handlers_of (configs : list Configuration) : list Handler :=
  match configs with
  | [] => []
  | HttpErrorHandler handler :: rest => handler :: handlers_of rest
  | ErrorConstructorConfig _ _ :: rest => handlers_of rest
  end.

(** The error constructors among a run of configurations, in order. *)
Fixpoint constructors_of (configs : list Configuration) : list ErrorConstructors :=
  match configs with
  | [] => []
  | HttpErrorHandler _ :: rest => constructors_of rest
  | ErrorConstructorConfig byName service :: rest =>
      {| serviceErrorConstructor := service; errorNameToConstructor := byName |}
      :: constructors_of rest
  end.

(** The interceptors that the [interceptors] property asks for. *)
Definition interceptors_given (given : option InterceptorsProp) : list Interceptor :=
  match given with
  | Some (InterceptorArray l) => l
  | Some (OneInterceptor i) => [i]
  | None => []
  end.

(** A request with another body. *)
Definition with_body (request : HttpRequest) (data : JsValue) : HttpRequest :=
  {| req_method := req_method request;
     req_url := req_url request;
     req_baseUrl := req_baseUrl request;
     req_headers := req_headers request;
     req_query := req_query request;
     req_body := data;
     req_timeout := req_timeout request;
     req_signal := req_signal request |}.

(** ** The controllable server of the tests

    [src/tests/http-server.ts]: the queue of behaviours and [server2].  The
    server answers one request after the other, and the client stays until
    the response has ended; the sockets, the waiting and the overlap of
    requests in flight have no counterpart here, the time to wait is part of
    the answer instead. *)

Module HttpServer.

Record HttpServerBehavior := {
  statusCode : Z;
  header : list (string * string);
  body : string;
  delay : option Z
}.

(** [MutableRequest]: what the server keeps of a request. *)
Record Request := {
  url : option string;
  method : option string;
  headers : option (list (string * string));
  req_body : option JsValue
}.

(** The request as node hands it to the listener. *)
Record IncomingMessage := {
  in_url : option string;
  in_method : option string;
  in_headers : list (string * string);
  in_payload : string
}.

(** What the listener does on the response: the time it waits, then the
    arguments of its calls of [res.writeHead] and [res.write]. *)
Record Written := {
  waited : Z;
  w_statusCode : Z;
  w_header : list (string * string);
  w_body : string
}.

Record ServerBehaviorContainer := {
  behaviors : list HttpServerBehavior;
  defaultBehavior : HttpServerBehavior
}.

(** [new ServerBehaviorContainer()] *)
Definition newContainer : ServerBehaviorContainer :=
  {| defaultBehavior :=
       {| statusCode := 200; header := []; body := EmptyString; delay := Some 0 |};
     behaviors := [] |}.

(** [setBehaviors]: the queue becomes a copy of the given array. *)
Definition setBehaviors (this : ServerBehaviorContainer) (given : list HttpServerBehavior)
  : ServerBehaviorContainer :=
  {| behaviors := given; defaultBehavior := defaultBehavior this |}.

(** [getBehavior]: the head of the queue, which is removed, or the default. *)
Definition getBehavior (this : ServerBehaviorContainer)
  : HttpServerBehavior * ServerBehaviorContainer :=
  match behaviors this with
  | first :: rest => (first, {| behaviors := rest; defaultBehavior := defaultBehavior this |})
  | [] => (defaultBehavior this, this)
  end.

(** [n] calls of [getBehavior] in a row. *)
Fixpoint getBehaviors (n : nat) (this : ServerBehaviorContainer)
  : list HttpServerBehavior * ServerBehaviorContainer :=
  match n with
  | O => ([], this)
  | S fewer =>
      let '(first, this) := getBehavior this in
      let '(others, this) := getBehaviors fewer this in
      (first :: others, this)
  end.

(** The state behind a [ControlledServer]. *)
Record Server2 := {
  behaviorContainer : ServerBehaviorContainer;
  capturedRequests : list Request
}.

(** [server2(port)], before any request. *)
Definition server2 : Server2 :=
  {| behaviorContainer := newContainer; capturedRequests := [] |}.

(** [ControlledServer.setBehaviors] *)
Definition controlled_setBehaviors (server : Server2) (given : list HttpServerBehavior)
  : Server2 :=
  {| behaviorContainer := setBehaviors (behaviorContainer server) given;
     capturedRequests := capturedRequests server |}.


(** Whether [res.writeHead(statusCode, header)] goes through.  Node throws
    for a status code outside of 100..999, and for headers that it does not
    accept; that second check is node's own and is a parameter. *)
Definition writeHead_accepts (validHeaders : list (string * string) -> bool)
    (behavior : HttpServerBehavior) : bool :=
  (100 <=? statusCode behavior) && (statusCode behavior <=? 999)
  && validHeaders (header behavior).

(** The listener of [server2], for one request: it notes the request, takes
    the next behaviour, waits, calls [writeHead] and [write], and on the end of
    the response keeps the note.  When [writeHead] throws, nothing is written,
    the response never ends and the note is not kept; the rejection is handled
    by nobody, and what becomes of the server is not described: [None]. *)
Definition listener (validHeaders : list (string * string) -> bool) (server : Server2)
    (req : IncomingMessage) : option (Written * Server2) :=
  let request :=
    {| url := in_url req;
       method := in_method req;
       headers := Some (in_headers req);
       req_body := None |} in
  let '(serverBehavior, container) := getBehavior (behaviorContainer server) in
  if writeHead_accepts validHeaders serverBehavior then
    Some ({| waited := default 0 (delay serverBehavior);
             w_statusCode := statusCode serverBehavior;
             w_header := header serverBehavior;
             w_body := body serverBehavior |},
          {| behaviorContainer := container;
             capturedRequests := capturedRequests server ++ [request] |})
  else None.

(** The listener over a run of requests, as long as it does not throw. *)
Fixpoint serve (validHeaders : list (string * string) -> bool) (server : Server2)
    (reqs : list IncomingMessage) : option (list Written * Server2) :=
  match reqs with
  | [] => Some ([], server)
  | req :: rest =>
      '(written, server) ← listener validHeaders server req;
      '(others, server) ← serve validHeaders server rest;
      Some (written :: others, server)
  end.

(** The calls that a behaviour makes the listener place. *)
Definition written_for (behavior : HttpServerBehavior) : Written :=
  {| waited := default 0 (delay behavior);
     w_statusCode := statusCode behavior;
     w_header := header behavior;
     w_body := body behavior |}.

(** What the server keeps of an incoming request. *)
Definition noted (req : IncomingMessage) : Request :=
  {| url := in_url req;
     method := in_method req;
     headers := Some (in_headers req);
     req_body := None |}.

End HttpServer.

(** Case analysis on the configured fallback constructor. *)
Ltac split_fallback :=
  match goal with
  | |- context [@mbind ?M ?I ?A ?B serviceErrorConstructor ?x] =>
      destruct (@mbind M I A B serviceErrorConstructor x)
  end.

(** Unfolds the monad. *)
Ltac run :=
  cbv [mbind M_bind mret M_ret mthrow M_throw emit throw throw_handler_result try_catch
       events raised returned fst snd].

(** * Properties *)

(** ** Events and the monad *)

Lemma count_attempts_app (evs evs' : list Event) :
  count_attempts (evs ++ evs') = (count_attempts evs + count_attempts evs')%nat.
Proof.
  induction evs as [|ev evs IH]; [reflexivity|].
  destruct ev; simpl; rewrite IH; reflexivity.
Qed.

(** ** The classifier, branch by branch *)

Lemma rethrowError_timeout (this : AxiosHttpClient) (e : AxiosError) :
  response e = None ->
  startsWith "timeout" (message e) = true ->
  rethrowError this (AxiosErr e)
  = ([LogWarn (default EmptyString (stack e))],
     Throw (ThrownError (ErrorObj TimeoutError (message e)))).
Proof.
  intros Hresp Hprefix. unfold rethrowError. rewrite Hresp, Hprefix. reflexivity.
Qed.

Lemma rethrowError_network (this : AxiosHttpClient) (e : AxiosError) :
  response e = None ->
  startsWith "timeout" (message e) = false ->
  rethrowError this (AxiosErr e)
  = ([], Throw (ThrownError (ErrorObj NetworkError (nullish (message e) (code e))))).
Proof.
  intros Hresp Hprefix. unfold rethrowError. rewrite Hresp, Hprefix. reflexivity.
Qed.

Lemma rethrowError_handler (this : AxiosHttpClient) (e : AxiosError) (resp : AxiosResponse)
    (handler : Handler) :
  response e = Some resp ->
  errorHandler this = Some handler ->
  rethrowError this (AxiosErr e)
  = ([HandlerCall (status resp) (data resp)],
     Throw match handler (status resp) (data resp) with
           | Normal v => v
           | Throw t => t
           end).
Proof.
  intros Hresp Hhandler. unfold rethrowError. rewrite Hresp, Hhandler. run.
  destruct (handler (status resp) (data resp)); reflexivity.
Qed.

Lemma rethrowError_other (this : AxiosHttpClient) (cls : ErrorClass) (msg : option string) :
  rethrowError this (ErrorObj cls msg)
  = ([], Throw (ThrownError (if message_is "canceled" msg
                             then ErrorObj NetworkError msg
                             else ErrorObj cls msg))).
Proof.
  unfold rethrowError. destruct (message_is "canceled" msg); reflexivity.
Qed.

(** Every path through the classifier ends in a [throw]. *)
Lemma rethrowError_total (this : AxiosHttpClient) (error : JsError) :
  exists evs t, rethrowError this error = (evs, Throw t).
Proof.
  destruct error as [e|cls msg|p]; [| |destruct p; unfold rethrowError; run; eauto].
  - unfold rethrowError. destruct (response e) as [resp|].
    + destruct (errorHandler this) as [handler|].
      * run. destruct (handler (status resp) (data resp)); eauto.
      * destruct (asUltrasaErrorBody (data resp)) as [env|].
        -- destruct (errorConstructors this ≫= errorNameToConstructor) as [byName|];
             [destruct (byName !! env_name env)|];
             split_fallback;
             run; eauto.
        -- destruct (status resp =? 403); [run; eauto|].
           destruct (status resp =? 404); run; eauto.
    + destruct (startsWith "timeout" (message e)); run; eauto.
  - rewrite rethrowError_other. eauto.
Qed.

(** The classifier never reaches the transport. *)
Lemma rethrowError_no_attempt (this : AxiosHttpClient) (error : JsError) :
  count_attempts (events (rethrowError this error)) = 0%nat.
Proof.
  destruct error as [e|cls msg|p]; [| |destruct p; reflexivity].
  - unfold rethrowError. destruct (response e) as [resp|].
    + destruct (errorHandler this) as [handler|].
      * run. destruct (handler (status resp) (data resp)); reflexivity.
      * destruct (asUltrasaErrorBody (data resp)) as [env|].
        -- destruct (errorConstructors this ≫= errorNameToConstructor) as [byName|];
             [destruct (byName !! env_name env)|];
             split_fallback;
             reflexivity.
        -- destruct (status resp =? 403); [reflexivity|].
           destruct (status resp =? 404); reflexivity.
    + destruct (startsWith "timeout" (message e)); reflexivity.
  - rewrite rethrowError_other. reflexivity.
Qed.

(** ** [send] around the call *)

Section SendFacts.

Variable toString : option Query -> string.
Variable axios_request : AxiosInstance -> AxiosCall -> M JsError AxiosResponse.

(** For a supported method the five branches of [send] place one call, the
    one described by [request_call]. *)
Lemma send_supported (this : AxiosHttpClient) (request : HttpRequest) :
  supported (req_method request) = true ->
  send toString axios_request this request
  = (emit (started toString request);;
     try_catch
       (resp ← axios_request (httpClient this) (request_call request);
        mret (Response {| body := data resp |}))
       (fun err => emit (failed toString request);; rethrowError this err;; mret FellThrough)).
Proof.
  unfold supported, send, request_call, get, delete, post, put, patch, started, failed.
  destruct request as [method url base hdrs query data tmo sig]; simpl.
  intros Hsupported.
  destruct (String.eqb_spec method "GET") as [->|_]; [reflexivity|].
  destruct (String.eqb_spec method "DELETE") as [->|_]; [reflexivity|].
  destruct (String.eqb_spec method "POST") as [->|_]; [reflexivity|].
  destruct (String.eqb_spec method "PUT") as [->|_]; [reflexivity|].
  destruct (String.eqb_spec method "PATCH") as [->|_]; [reflexivity|].
  discriminate Hsupported.
Qed.

Lemma send_resolved (this : AxiosHttpClient) (request : HttpRequest)
    (evs : list Event) (resp : AxiosResponse) :
  supported (req_method request) = true ->
  axios_request (httpClient this) (request_call request) = (evs, Normal resp) ->
  send toString axios_request this request
  = (started toString request :: evs ++ [], Normal (Response {| body := data resp |})).
Proof.
  intros Hsupported Hcall. rewrite send_supported by assumption.
  run. rewrite Hcall. reflexivity.
Qed.

Lemma send_rejected (this : AxiosHttpClient) (request : HttpRequest)
    (evs : list Event) (err : JsError) :
  supported (req_method request) = true ->
  axios_request (httpClient this) (request_call request) = (evs, Throw err) ->
  exists evs' t,
    rethrowError this err = (evs', Throw t)
    /\ send toString axios_request this request
       = (started toString request :: evs ++ failed toString request :: evs', Throw t).
Proof.
  intros Hsupported Hcall.
  destruct (rethrowError_total this err) as (evs' & t & Hclassified).
  exists evs', t. split; [assumption|].
  rewrite send_supported by assumption.
  run. rewrite Hcall, Hclassified. reflexivity.
Qed.

(** A rejected call surfaces as whatever the classifier raises. *)
Lemma send_raises (this : AxiosHttpClient) (request : HttpRequest) (err : JsError) :
  rejected axios_request this request err ->
  raised (send toString axios_request this request) = raised (rethrowError this err).
Proof.
  intros [Hsupported Hcall].
  destruct (axios_request (httpClient this) (request_call request)) as [evs c] eqn:Hrun.
  simpl in Hcall. subst c.
  destruct (send_rejected this request evs err Hsupported Hrun) as (evs' & t & -> & ->).
  reflexivity.
Qed.

(** The transport attempts of a [send] are those of the call it places. *)
Lemma send_attempts (this : AxiosHttpClient) (request : HttpRequest) :
  supported (req_method request) = true ->
  count_attempts (events (send toString axios_request this request))
  = count_attempts (events (axios_request (httpClient this) (request_call request))).
Proof.
  intros Hsupported.
  destruct (axios_request (httpClient this) (request_call request)) as [evs [resp|err]] eqn:Hrun.
  - rewrite (send_resolved this request evs resp Hsupported Hrun).
    unfold events. simpl. rewrite app_nil_r. reflexivity.
  - destruct (send_rejected this request evs err Hsupported Hrun) as (evs' & t & Hclass & ->).
    pose proof (rethrowError_no_attempt this err) as Hnone.
    rewrite Hclass in Hnone. unfold events in *. simpl in *.
    rewrite count_attempts_app. simpl. rewrite Hnone. lia.
Qed.

(** An unsupported method: the rejection is [IllegalArgumentError], raised
    inside the [try] block and passed through the classifier unchanged. *)
Lemma send_unsupported (this : AxiosHttpClient) (request : HttpRequest) :
  supported (req_method request) = false ->
  send toString axios_request this request
  = ([started toString request; failed toString request],
     Throw (ThrownError (ErrorObj IllegalArgumentError
                           (Some ("Invalid method " +:+ req_method request +:+ "."))))).
Proof.
  unfold supported, send, started, failed.
  destruct request as [method url base hdrs query data tmo sig]; simpl.
  intros Hunsupported.
  destruct (String.eqb method "GET"); [discriminate|].
  destruct (String.eqb method "DELETE"); [discriminate|].
  destruct (String.eqb method "POST"); [discriminate|].
  destruct (String.eqb method "PUT"); [discriminate|].
  destruct (String.eqb method "PATCH"); [discriminate|].
  reflexivity.
Qed.

End SendFacts.

(** ** The attempt loop *)

Lemma attempt_loop_unfold (net : Transport) (inst : AxiosInstance) (call : AxiosCall)
    (maximumRetry : Z) (remaining attemptIndex : nat) :
  attempt_loop net inst call maximumRetry remaining attemptIndex
  = (emit (TransportAttempt attemptIndex call);;
     match net inst call attemptIndex with
     | Normal resp => mret resp
     | Throw err =>
         if shouldRetry maximumRetry (call_method call) attemptIndex (outcome_of (Throw err))
         then
           match remaining with
           | S fewer => attempt_loop net inst call maximumRetry fewer (S attemptIndex)
           | O => mthrow err
           end
         else mthrow err
     end).
Proof. destruct remaining; reflexivity. Qed.

Lemma shouldRetry_bound (maximumRetry : Z) (method : string) (attemptIndex : nat)
    (outcome : AttemptOutcome) :
  shouldRetry maximumRetry method attemptIndex outcome = true ->
  Z.of_nat attemptIndex < maximumRetry.
Proof.
  unfold shouldRetry.
  destruct (Z.leb_spec maximumRetry (Z.of_nat attemptIndex)); [discriminate|].
  intros _. assumption.
Qed.

Lemma count_attempt_events (call : AxiosCall) (first count : nat) :
  count_attempts (attempt_events call first count) = count.
Proof.
  unfold attempt_events. revert first.
  induction count as [|count IH]; intros first; simpl; [reflexivity|].
  rewrite IH. reflexivity.
Qed.

(** The loop makes attempt after attempt while the policy says retry, and
    ends with the outcome of the first attempt that the policy does not
    retry. *)
Lemma attempt_loop_run (net : Transport) (inst : AxiosInstance) (call : AxiosCall)
    (maximumRetry : Z) (k : nat) :
  forall remaining i : nat,
    Z.to_nat maximumRetry = (i + remaining)%nat ->
    (forall j, (i <= j < i + k)%nat ->
       exists err, net inst call j = Throw err
         /\ shouldRetry maximumRetry (call_method call) j (outcome_of (Throw err)) = true) ->
    shouldRetry maximumRetry (call_method call) (i + k)%nat
      (outcome_of (net inst call (i + k)%nat)) = false ->
    attempt_loop net inst call maximumRetry remaining i
    = (attempt_events call i (S k), net inst call (i + k)%nat).
Proof.
  induction k as [|k IH]; intros remaining i Hfuel Hretried Hlast.
  - rewrite Nat.add_0_r in *. rewrite attempt_loop_unfold.
    destruct (net inst call i) as [resp|err]; [reflexivity|].
    rewrite Hlast. reflexivity.
  - destruct (Hretried i ltac:(lia)) as (err & Hi & Hretry).
    pose proof (shouldRetry_bound _ _ _ _ Hretry) as Hbound.
    destruct remaining as [|fewer]; [lia|].
    rewrite attempt_loop_unfold, Hi, Hretry.
    replace (i + S k)%nat with (S i + k)%nat in * by lia.
    run. rewrite (IH fewer (S i)); [reflexivity|lia| |assumption].
    intros j Hj. apply Hretried. lia.
Qed.

Lemma axios_dispatch_run (net : Transport) (inst : AxiosInstance) (call : AxiosCall) (k : nat) :
  (forall j, (j < k)%nat ->
     exists err, net inst call j = Throw err
       /\ shouldRetry (installed_retries inst) (call_method call) j
            (outcome_of (Throw err)) = true) ->
  shouldRetry (installed_retries inst) (call_method call) k
    (outcome_of (net inst call k)) = false ->
  axios_dispatch net inst call = (attempt_events call 0 (S k), net inst call k).
Proof.
  intros Hretried Hlast. unfold axios_dispatch, installed_retries in *.
  destruct (retry inst) as [config|].
  - apply (attempt_loop_run net inst call (retries config) k (Z.to_nat (retries config)) 0%nat);
      [reflexivity| |assumption].
    intros j Hj. apply Hretried. lia.
  - apply (attempt_loop_run net inst call 0 k 0%nat 0%nat); [reflexivity| |assumption].
    intros j Hj. apply Hretried. lia.
Qed.

(** ** Cancellation, as the classifier and the policy see it *)

Lemma cancellation_outcome (err : JsError) :
  cancellation err ->
  outcome_of (Throw err) = TransportFailure Cancelled (Some "canceled"%string).
Proof.
  destruct err as [e|cls msg|p]; simpl.
  - intros [-> ->]. reflexivity.
  - intros ->. reflexivity.
  - contradiction.
Qed.

Lemma cancellation_raises (this : AxiosHttpClient) (err : JsError) :
  cancellation err ->
  raised (rethrowError this err)
  = Some (ThrownError (ErrorObj NetworkError (Some "canceled"%string))).
Proof.
  destruct err as [e|cls msg|p]; unfold cancellation.
  - intros [Hresp Hmessage].
    rewrite rethrowError_network; rewrite ?Hmessage; [reflexivity|assumption|reflexivity].
  - intros ->. rewrite rethrowError_other. reflexivity.
  - contradiction.
Qed.

Lemma cancellation_not_retried (maximumRetry : Z) (method : string) (attemptIndex : nat)
    (err : JsError) :
  cancellation err ->
  shouldRetry maximumRetry method attemptIndex (outcome_of (Throw err)) = false.
Proof.
  intros Hcancel. rewrite (cancellation_outcome err Hcancel). unfold shouldRetry.
  destruct (maximumRetry <=? Z.of_nat attemptIndex); [reflexivity|].
  destruct (idempotent method); reflexivity.
Qed.

(** ** The claims *)

(** C1. An application error whose body is a first-party envelope, an object
    with a string [name] and a string [message], is classified by the chain of
    three steps when no custom handler is configured, whatever the status: the
    constructor that the configured mapping holds for the name, applied to the
    message; failing that, the configured fallback constructor applied to
    "name: message"; failing that, a plain error with the message
    "name: message".  [send] raises the same error. *)
Theorem envelope_classification (this : AxiosHttpClient) (e : AxiosError)
    (resp : AxiosResponse) (props : list (string * JsValue)) (name text : string) :
  response e = Some resp ->
  data resp = JObj props ->
  lookup_prop "name" props = JStr name ->
  lookup_prop "message" props = JStr text ->
  errorHandler this = None ->
  let classified :=
    Some (ThrownError
            match constructor_for this name with
            | Some constructor => constructor text
            | None =>
                match fallback_constructor this with
                | Some service => service (name +:+ ": " +:+ text)
                | None => ErrorObj PlainError (Some (name +:+ ": " +:+ text))
                end
            end) in
  raised (rethrowError this (AxiosErr e)) = classified
  /\ forall toString axios_request request,
       rejected axios_request this request (AxiosErr e) ->
       raised (send toString axios_request this request) = classified.
Proof.
  intros Hresp Hdata Hname Htext Hhandler classified.
  assert (raised (rethrowError this (AxiosErr e)) = classified) as Hclassified.
  { subst classified. unfold rethrowError, constructor_for, fallback_constructor.
    rewrite Hresp, Hhandler, Hdata. simpl. rewrite Hname, Htext. simpl.
    destruct (errorConstructors this) as [[service byName]|]; simpl; [|reflexivity].
    destruct byName as [byName|]; simpl;
      [destruct (byName !! name) as [constructor|]; [reflexivity|]|];
      destruct service; reflexivity. }
  split; [assumption|].
  intros toString axios_request request Hrejected.
  rewrite (send_raises toString axios_request this request _ Hrejected). assumption.
Qed.

Lemma envelope_classification_witness :
  let this := configure (constructor (sample_props None)) sample_constructors in
  let e := sample_failure 404 sample_envelope in
  raised (rethrowError this (AxiosErr e))
  = Some (ThrownError (ErrorObj NetworkError (Some "mockErrorMessage"%string)))
  /\ raised (send_over sample_toString (sample_net (Throw (AxiosErr e))) this
               (sample_request "GET"))
     = Some (ThrownError (ErrorObj NetworkError (Some "mockErrorMessage"%string))).
Proof.
  intros this e.
  destruct (envelope_classification this e (sample_response 404 sample_envelope)
              [("name", JStr "SystemError"); ("message", JStr "mockErrorMessage")]
              "SystemError" "mockErrorMessage"
              eq_refl eq_refl eq_refl eq_refl eq_refl) as [Hclassifier Hsend].
  split; [exact Hclassifier|].
  apply Hsend. split; reflexivity.
Defined.

(** C2. When the call is rejected without a response and the failure is a
    timeout, its message starting with "timeout", [send] raises [TimeoutError]
    with that very message. *)
Theorem timeout_classification (toString : option Query -> string)
    (axios_request : AxiosInstance -> AxiosCall -> M JsError AxiosResponse)
    (this : AxiosHttpClient) (request : HttpRequest) (e : AxiosError) (text : string) :
  rejected axios_request this request (AxiosErr e) ->
  response e = None ->
  message e = Some text ->
  String.prefix "timeout" text = true ->
  raised (send toString axios_request this request)
  = Some (ThrownError (ErrorObj TimeoutError (Some text))).
Proof.
  intros Hrejected Hresp Hmessage Hprefix.
  rewrite (send_raises toString axios_request this request _ Hrejected).
  rewrite rethrowError_timeout; [|assumption|rewrite Hmessage; exact Hprefix].
  rewrite Hmessage. reflexivity.
Qed.

Lemma timeout_classification_witness :
  raised (send_over sample_toString (sample_net (Throw (AxiosErr sample_timeout)))
            (constructor (sample_props (Some 2))) (sample_request "GET"))
  = Some (ThrownError (ErrorObj TimeoutError (Some "timeout of 500ms exceeded"%string))).
Proof.
  apply (timeout_classification sample_toString
           (axios_dispatch (sample_net (Throw (AxiosErr sample_timeout))))
           (constructor (sample_props (Some 2))) (sample_request "GET") sample_timeout
           "timeout of 500ms exceeded").
  - split; reflexivity.
  - reflexivity.
  - reflexivity.
  - reflexivity.
Defined.

(** C3. When a response was received and a custom error handler is
    configured, the classifier calls the handler once, with the status and the
    raw body, and raises what the handler throws or returns, before any look at
    the envelope or at the status; [send] raises the same.  When no response was
    received the handler is not called, and the outcome is the one of the
    client without a handler. *)
Theorem handler_precedence (this : AxiosHttpClient) :
  (forall handler e resp,
     errorHandler this = Some handler ->
     response e = Some resp ->
     let result :=
       match handler (status resp) (data resp) with
       | Normal v => v
       | Throw t => t
       end in
     rethrowError this (AxiosErr e)
     = ([HandlerCall (status resp) (data resp)], Throw result)
     /\ forall toString axios_request request,
          rejected axios_request this request (AxiosErr e) ->
          raised (send toString axios_request this request) = Some result)
  /\ (forall err,
        no_response err ->
        handler_calls (events (rethrowError this err)) = []
        /\ rethrowError this err
           = rethrowError {| httpClient := httpClient this;
                             errorHandler := None;
                             errorConstructors := errorConstructors this |} err).
Proof.
  split.
  - intros handler e resp Hhandler Hresp result.
    pose proof (rethrowError_handler this e resp handler Hresp Hhandler) as Hcall.
    split; [exact Hcall|].
    intros toString axios_request request Hrejected.
    rewrite (send_raises toString axios_request this request _ Hrejected), Hcall.
    reflexivity.
  - intros [e|cls msg|p] Hnone; simpl in Hnone.
    + unfold rethrowError. rewrite Hnone.
      destruct (startsWith "timeout" (message e)); split; reflexivity.
    + rewrite !rethrowError_other. split; reflexivity.
    + destruct p; split; reflexivity.
Qed.

Lemma handler_precedence_witness :
  let this := configure (constructor (sample_props None)) (HttpErrorHandler sample_handler) in
  rethrowError this (AxiosErr (sample_failure 401 (JStr "An Error Message")))
  = ([HandlerCall 401 (JStr "An Error Message")],
     Throw (ThrownError (ErrorObj (OtherClass "ThirdPartyError") (Some "mockErrorMessage"%string))))
  /\ handler_calls (events (rethrowError this (AxiosErr sample_timeout))) = [].
Proof.
  intros this. split.
  - apply (proj1 (handler_precedence this) sample_handler
             (sample_failure 401 (JStr "An Error Message"))
             (sample_response 401 (JStr "An Error Message")) eq_refl eq_refl).
  - apply (proj2 (handler_precedence this) (AxiosErr sample_timeout) eq_refl).
Defined.

(** ** Bodies that are no envelope *)

Lemma rethrowError_plain (this : AxiosHttpClient) (e : AxiosError) (resp : AxiosResponse) :
  response e = Some resp ->
  errorHandler this = None ->
  isUltrasaErrorBody (data resp) = false ->
  rethrowError this (AxiosErr e)
  = if status resp =? 403 then
      ([LogWarn (default EmptyString (stack e))],
       Throw (ThrownError (ErrorObj UnauthenticatedError
                             (Some (string_or_empty (opt_get "message" (data resp)))))))
    else if status resp =? 404 then
      ([LogWarn (default EmptyString (stack e))],
       Throw (ThrownError (ErrorObj EndpointNotFoundError
                             (Some (string_or_empty (opt_get "message" (data resp)))))))
    else ([], Throw (ThrownError (AxiosErr e))).
Proof.
  intros Hresp Hhandler Hplain. unfold isUltrasaErrorBody in Hplain.
  unfold rethrowError. rewrite Hresp, Hhandler.
  destruct (asUltrasaErrorBody (data resp)); [discriminate|].
  destruct (status resp =? 403); [reflexivity|].
  destruct (status resp =? 404); reflexivity.
Qed.

(** C5. With no custom handler and a body that is no first-party envelope,
    [send] raises [UnauthenticatedError] at status 403 and
    [EndpointNotFoundError] at status 404; the message is the [message] field of
    the body when that field is a string, and the empty string otherwise. *)
Theorem gateway_classification (toString : option Query -> string)
    (axios_request : AxiosInstance -> AxiosCall -> M JsError AxiosResponse)
    (this : AxiosHttpClient) (request : HttpRequest) (e : AxiosError) (resp : AxiosResponse) :
  rejected axios_request this request (AxiosErr e) ->
  response e = Some resp ->
  errorHandler this = None ->
  isUltrasaErrorBody (data resp) = false ->
  let text :=
    match opt_get "message" (data resp) with
    | JStr s => s
    | _ => EmptyString
    end in
  (status resp = 403 ->
   raised (send toString axios_request this request)
   = Some (ThrownError (ErrorObj UnauthenticatedError (Some text))))
  /\ (status resp = 404 ->
      raised (send toString axios_request this request)
      = Some (ThrownError (ErrorObj EndpointNotFoundError (Some text)))).
Proof.
  intros Hrejected Hresp Hhandler Hplain text.
  rewrite (send_raises toString axios_request this request _ Hrejected).
  rewrite (rethrowError_plain this e resp Hresp Hhandler Hplain).
  split; intros ->; reflexivity.
Qed.

Lemma gateway_classification_witness :
  let body := JObj [("message", JStr "Missing Authentication Token")] in
  raised (send_over sample_toString (sample_net (Throw (AxiosErr (sample_failure 403 body))))
            (constructor (sample_props None)) (sample_request "GET"))
  = Some (ThrownError (ErrorObj UnauthenticatedError
                         (Some "Missing Authentication Token"%string)))
  /\ raised (send_over sample_toString
               (sample_net (Throw (AxiosErr (sample_failure 404 (JStr "Cannot GET /test")))))
               (constructor (sample_props None)) (sample_request "GET"))
     = Some (ThrownError (ErrorObj EndpointNotFoundError (Some EmptyString))).
Proof.
  intros body. split.
  - apply (proj1 (gateway_classification sample_toString
                    (axios_dispatch (sample_net (Throw (AxiosErr (sample_failure 403 body)))))
                    (constructor (sample_props None)) (sample_request "GET")
                    (sample_failure 403 body) (sample_response 403 body)
                    (conj eq_refl eq_refl) eq_refl eq_refl eq_refl)).
    reflexivity.
  - apply (proj2 (gateway_classification sample_toString
                    (axios_dispatch
                       (sample_net (Throw (AxiosErr (sample_failure 404 (JStr "Cannot GET /test"))))))
                    (constructor (sample_props None)) (sample_request "GET")
                    (sample_failure 404 (JStr "Cannot GET /test"))
                    (sample_response 404 (JStr "Cannot GET /test"))
                    (conj eq_refl eq_refl) eq_refl eq_refl eq_refl)).
    reflexivity.
Defined.

(** C6. With no custom handler, a body that is no first-party envelope and a
    status other than 403 and 404, the classifier logs nothing and raises the
    rejection it was given, and so does [send]: the caller holds the original
    error, with its status and its raw body. *)
Theorem opaque_passthrough (toString : option Query -> string)
    (axios_request : AxiosInstance -> AxiosCall -> M JsError AxiosResponse)
    (this : AxiosHttpClient) (request : HttpRequest) (e : AxiosError) (resp : AxiosResponse) :
  rejected axios_request this request (AxiosErr e) ->
  response e = Some resp ->
  errorHandler this = None ->
  isUltrasaErrorBody (data resp) = false ->
  status resp <> 403 ->
  status resp <> 404 ->
  rethrowError this (AxiosErr e) = ([], Throw (ThrownError (AxiosErr e)))
  /\ raised (send toString axios_request this request) = Some (ThrownError (AxiosErr e)).
Proof.
  intros Hrejected Hresp Hhandler Hplain H403 H404.
  assert (rethrowError this (AxiosErr e) = ([], Throw (ThrownError (AxiosErr e)))) as Hsame.
  { rewrite (rethrowError_plain this e resp Hresp Hhandler Hplain).
    destruct (Z.eqb_spec (status resp) 403); [contradiction|].
    destruct (Z.eqb_spec (status resp) 404); [contradiction|].
    reflexivity. }
  split; [exact Hsame|].
  rewrite (send_raises toString axios_request this request _ Hrejected), Hsame.
  reflexivity.
Qed.

Lemma opaque_passthrough_witness :
  let e := sample_failure 401 (JStr "An Error Message") in
  raised (send_over sample_toString (sample_net (Throw (AxiosErr e)))
            (constructor (sample_props None)) (sample_request "GET"))
  = Some (ThrownError (AxiosErr e)).
Proof.
  intros e.
  apply (opaque_passthrough sample_toString (axios_dispatch (sample_net (Throw (AxiosErr e))))
           (constructor (sample_props None)) (sample_request "GET") e
           (sample_response 401 (JStr "An Error Message"))).
  - split; reflexivity.
  - reflexivity.
  - reflexivity.
  - reflexivity.
  - discriminate.
  - discriminate.
Defined.

(** C7. Whatever the rejection and whatever the configuration, the classifier
    completes by throwing one value and never returns; a [send] whose call is
    rejected completes by throwing too. *)
Theorem classifier_always_raises (this : AxiosHttpClient) (error : JsError) :
  (exists evs t, rethrowError this error = (evs, Throw t))
  /\ returned (rethrowError this error) = None
  /\ forall toString axios_request request,
       rejected axios_request this request error ->
       exists t, raised (send toString axios_request this request) = Some t
                 /\ returned (send toString axios_request this request) = None.
Proof.
  destruct (rethrowError_total this error) as (evs & t & Hthrows).
  split; [eauto|]. split; [rewrite Hthrows; reflexivity|].
  intros toString axios_request request [Hsupported Hcall].
  destruct (axios_request (httpClient this) (request_call request)) as [evs0 c] eqn:Hrun.
  simpl in Hcall. subst c.
  destruct (send_rejected toString axios_request this request evs0 error Hsupported Hrun)
    as (evs' & t' & _ & ->).
  exists t'. split; reflexivity.
Qed.

Lemma classifier_always_raises_witness :
  exists t,
    raised (send_over sample_toString (sample_net (Throw (AxiosErr sample_canceled)))
              (configure (constructor (sample_props None)) (HttpErrorHandler sample_handler))
              (sample_request "DELETE")) = Some t.
Proof.
  destruct (proj2 (proj2 (classifier_always_raises
                            (configure (constructor (sample_props None))
                                       (HttpErrorHandler sample_handler))
                            (AxiosErr sample_canceled)))
              sample_toString
              (axios_dispatch (sample_net (Throw (AxiosErr sample_canceled))))
              (sample_request "DELETE") (conj eq_refl eq_refl)) as (t & Hraised & _).
  exists t. exact Hraised.
Defined.

(** C9. A request whose method is none of GET, POST, PUT, PATCH and DELETE
    makes [send] raise [IllegalArgumentError]; the only events are the two
    debug lines, so the axios instance is not called: there is no transport
    attempt and nothing to retry, whatever the transport and whatever retry
    behaviour the instance has. *)
Theorem unsupported_method_rejected (toString : option Query -> string)
    (this : AxiosHttpClient) (request : HttpRequest) :
  ~ In (req_method request) ["GET"; "POST"; "PUT"; "PATCH"; "DELETE"]%string ->
  forall axios_request,
    raised (send toString axios_request this request)
    = Some (ThrownError (ErrorObj IllegalArgumentError
                           (Some ("Invalid method " +:+ req_method request +:+ "."))))
    /\ events (send toString axios_request this request)
       = [started toString request; failed toString request]
    /\ count_attempts (events (send toString axios_request this request)) = 0%nat.
Proof.
  intros Hmethod axios_request.
  assert (supported (req_method request) = false) as Hunsupported.
  { unfold supported.
    destruct (String.eqb_spec (req_method request) "GET") as [Heq|_];
      [contradict Hmethod; rewrite Heq; simpl; auto 10|].
    destruct (String.eqb_spec (req_method request) "DELETE") as [Heq|_];
      [contradict Hmethod; rewrite Heq; simpl; auto 10|].
    destruct (String.eqb_spec (req_method request) "POST") as [Heq|_];
      [contradict Hmethod; rewrite Heq; simpl; auto 10|].
    destruct (String.eqb_spec (req_method request) "PUT") as [Heq|_];
      [contradict Hmethod; rewrite Heq; simpl; auto 10|].
    destruct (String.eqb_spec (req_method request) "PATCH") as [Heq|_];
      [contradict Hmethod; rewrite Heq; simpl; auto 10|].
    reflexivity. }
  rewrite (send_unsupported toString axios_request this request Hunsupported).
  repeat split.
Qed.

Lemma unsupported_method_rejected_witness :
  count_attempts
    (events (send_over sample_toString (sample_net (Throw (AxiosErr (sample_failure 500 JNull))))
               (constructor (sample_props (Some 2))) (sample_request "TRACE"))) = 0%nat.
Proof.
  apply (unsupported_method_rejected sample_toString (constructor (sample_props (Some 2)))
           (sample_request "TRACE")).
  simpl. intros [H|[H|[H|[H|[H|[]]]]]]; discriminate H.
Defined.

(** ** Attempts of a [send] over a transport *)

Lemma send_over_terminal (toString : option Query -> string) (net : Transport)
    (this : AxiosHttpClient) (request : HttpRequest) (k : nat) :
  supported (req_method request) = true ->
  (forall j, (j < k)%nat ->
     exists failure,
       net (httpClient this) (request_call request) j = Throw failure
       /\ shouldRetry (installed_retries (httpClient this)) (req_method request) j
            (outcome_of (Throw failure)) = true) ->
  shouldRetry (installed_retries (httpClient this)) (req_method request) k
    (outcome_of (net (httpClient this) (request_call request) k)) = false ->
  axios_dispatch net (httpClient this) (request_call request)
  = (attempt_events (request_call request) 0 (S k),
     net (httpClient this) (request_call request) k)
  /\ count_attempts (events (send_over toString net this request)) = S k.
Proof.
  intros Hsupported Hretried Hlast.
  pose proof (axios_dispatch_run net (httpClient this) (request_call request) k
                Hretried Hlast) as Hrun.
  split; [exact Hrun|].
  unfold send_over. rewrite send_attempts by assumption.
  rewrite Hrun. apply count_attempt_events.
Qed.




(** C4. When an attempt of the call is cancelled, [send] raises
    [NetworkError] with the message "canceled", and the cancelled attempt is the
    last one: after [k] attempts that were retried, a cancellation at attempt
    [k] leaves the count at [k + 1], however many retries the instance has
    left. *)
Theorem cancellation_classification (toString : option Query -> string) (net : Transport)
    (this : AxiosHttpClient) (request : HttpRequest) (k : nat) (err : JsError) :
  supported (req_method request) = true ->
  (forall j, (j < k)%nat ->
     exists failure,
       net (httpClient this) (request_call request) j = Throw failure
       /\ shouldRetry (installed_retries (httpClient this)) (req_method request) j
            (outcome_of (Throw failure)) = true) ->
  net (httpClient this) (request_call request) k = Throw err ->
  cancellation err ->
  raised (send_over toString net this request)
  = Some (ThrownError (ErrorObj NetworkError (Some "canceled"%string)))
  /\ count_attempts (events (send_over toString net this request)) = S k.
Proof.
  intros Hsupported Hretried Hk Hcancel.
  destruct (send_over_terminal toString net this request k Hsupported Hretried)
    as [Hrun Hcount].
  { rewrite Hk. apply cancellation_not_retried. assumption. }
  split; [|exact Hcount].
  unfold send_over.
  rewrite (send_raises toString (axios_dispatch net) this request err).
  - apply cancellation_raises. assumption.
  - split; [assumption|]. rewrite Hrun. exact Hk.
Qed.

Lemma cancellation_classification_witness :
  let this := constructor (sample_props (Some 5)) in
  raised (send_over sample_toString (sample_net_cancel_at 2) this (sample_request "GET"))
  = Some (ThrownError (ErrorObj NetworkError (Some "canceled"%string)))
  /\ count_attempts
       (events (send_over sample_toString (sample_net_cancel_at 2) this (sample_request "GET")))
     = 3%nat.
Proof.
  intros this.
  apply (cancellation_classification sample_toString (sample_net_cancel_at 2) this
           (sample_request "GET") 2 (AxiosErr sample_canceled)).
  - reflexivity.
  - intros [|[|j]] Hj; [| |lia];
      (exists (AxiosErr (sample_failure 500 JNull)); split; reflexivity).
  - reflexivity.
  - split; reflexivity.
Defined.







(** ** The scenarios of the test suite *)

(** A 200 response resolves with its body, after one attempt. *)
Example send_getHappyPath :
  send_over sample_toString (sample_net_recovering 0) (constructor (sample_props None))
    (sample_request "GET")
  = ([LogDebug "Send request to /test?."; TransportAttempt 0 (request_call (sample_request "GET"))],
     Normal (Response {| body := JObj [("success", JBool true)] |})).
Proof. reflexivity. Qed.

(** An envelope at status 404 and no constructors configured: a plain error. *)
Example send_getFirstPartyServiceWithKnownErrorWithErrorConstructor :
  raised (send_over sample_toString
            (sample_net (Throw (AxiosErr (sample_failure 404 sample_envelope))))
            (constructor (sample_props None)) (sample_request "GET"))
  = Some (ThrownError (ErrorObj PlainError (Some "SystemError: mockErrorMessage"%string))).
Proof. reflexivity. Qed.

(** The same body, a mapping without the name and a fallback constructor. *)
Example send_getFirstPartyServiceWithServiceError :
  let constructors :=
    ErrorConstructorConfig
      (Some (<["X"%string := ErrorObj NetworkError ∘ Some]> ∅))
      (Some (ErrorObj (OtherClass "MockServiceError") ∘ Some)) in
  raised (send_over sample_toString
            (sample_net (Throw (AxiosErr (sample_failure 404 sample_envelope))))
            (configure (constructor (sample_props None)) constructors) (sample_request "GET"))
  = Some (ThrownError (ErrorObj (OtherClass "MockServiceError")
                         (Some "SystemError: mockErrorMessage"%string))).
Proof. reflexivity. Qed.

(** A POST is not retried: one attempt, and the 500 surfaces as it came. *)
Example send_withRetryAndPostMethod :
  let run :=
    send_over sample_toString (sample_net_recovering 10) (constructor (sample_props (Some 2)))
      (sample_request "POST") in
  count_attempts (events run) = 1%nat
  /\ raised run
     = Some (ThrownError (AxiosErr (sample_failure 500 (JObj [("success", JBool false)])))).
Proof. split; reflexivity. Qed.

(** A PUT with five retries that succeeds at the sixth attempt. *)
Example send_with500ResponsePutMethodAndRetry5Times :
  let run :=
    send_over sample_toString (sample_net_recovering 5) (constructor (sample_props (Some 5)))
      (sample_request "PUT") in
  count_attempts (events run) = 6%nat
  /\ returned run = Some (Response {| body := JObj [("success", JBool true)] |}).
Proof. split; reflexivity. Qed.

(** * Further properties of the client *)

(** ** [configure] *)

(** X1. Over any run of [configure] calls the axios instance stays the same,
    the handler in force is the last one registered and the error constructors
    in force are the last ones registered; calls of one kind leave the other
    kind alone. *)
Theorem configure_last_wins (this : AxiosHttpClient) (configs : list Configuration) :
  httpClient (configure_all this configs) = httpClient this
  /\ errorHandler (configure_all this configs)
     = match last (handlers_of configs) with
       | Some handler => Some handler
       | None => errorHandler this
       end
  /\ errorConstructors (configure_all this configs)
     = match last (constructors_of configs) with
       | Some constructors => Some constructors
       | None => errorConstructors this
       end.
Proof.
  unfold configure_all. revert this.
  induction configs as [|config rest IH]; intros this; [repeat split|].
  destruct (IH (configure this config)) as (Hclient & Hhandler & Hconstructors).
  simpl fold_left. rewrite Hclient, Hhandler, Hconstructors.
  destruct config as [handler|byName service]; simpl.
  - rewrite last_cons. destruct (last (handlers_of rest)); repeat split.
  - rewrite last_cons. destruct (last (constructors_of rest)); repeat split.
Qed.

(** ** The constructor *)

Lemma fold_use_all (interceptors : list Interceptor) (inst : AxiosInstance) :
  fold_left interceptors_request_use interceptors inst
  = {| defaults_baseURL := defaults_baseURL inst;
       defaults_timeout := defaults_timeout inst;
       request_interceptors := request_interceptors inst ++ interceptors;
       retry := retry inst |}.
Proof.
  revert inst. induction interceptors as [|i rest IH]; intros inst; simpl.
  - rewrite app_nil_r. destruct inst; reflexivity.
  - rewrite IH. simpl. rewrite <- app_assoc. reflexivity.
Qed.

(** X2. Without an explicit instance the client holds an instance created
    with the given base URL and timeout, on which the given interceptors are
    registered in their order, a single interceptor counting as an array of
    one; retry behaviour is installed exactly when [maximumRetry] is a positive
    number, with that many retries and the exponential delay.  No handler and
    no error constructors are set. *)
Theorem constructor_creates (props : AxiosHttpClientProps) :
  instance props = None ->
  constructor props
  = {| httpClient :=
         {| defaults_baseURL := baseUrl props;
            defaults_timeout := props_timeout props;
            request_interceptors := interceptors_given (interceptors props);
            retry :=
              match maximumRetry props with
              | Some n =>
                  if 0 <? n
                  then Some {| retries := n; retryDelay := exponentialDelay |}
                  else None
              | None => None
              end |};
       errorHandler := None;
       errorConstructors := None |}.
Proof.
  intros Hcreated. unfold constructor, interceptors_given. rewrite Hcreated.
  f_equal.
  destruct (interceptors props) as [[i|l]|]; rewrite ?fold_use_all;
    destruct (maximumRetry props) as [n|]; try destruct (0 <? n); reflexivity.
Qed.

Lemma constructor_creates_witness :
  let props :=
    {| instance := None;
       baseUrl := Some "http://localhost:23324"%string;
       props_timeout := Some 100;
       interceptors := Some (OneInterceptor Normal);
       maximumRetry := Some 2 |} in
  request_interceptors (httpClient (constructor props)) = [Normal]
  /\ retry (httpClient (constructor props))
     = Some {| retries := 2; retryDelay := exponentialDelay |}.
Proof.
  intros props. rewrite (constructor_creates props eq_refl). split; reflexivity.
Defined.

(** ** [send] *)

(** X3. When the call resolves, [send] resolves with the data of the response
    as its body and with nothing else of it; it logs the one debug line before
    the call, and neither the classifier nor the handler runs, whatever the
    client is configured with. *)
Theorem send_resolves_with_data (toString : option Query -> string)
    (axios_request : AxiosInstance -> AxiosCall -> M JsError AxiosResponse)
    (this : AxiosHttpClient) (request : HttpRequest) (evs : list Event)
    (resp : AxiosResponse) :
  supported (req_method request) = true ->
  axios_request (httpClient this) (request_call request) = (evs, Normal resp) ->
  send toString axios_request this request
  = (started toString request :: evs, Normal (Response {| body := data resp |})).
Proof.
  intros Hsupported Hcall.
  rewrite (send_resolved toString axios_request this request evs resp Hsupported Hcall).
  rewrite app_nil_r. reflexivity.
Qed.

Lemma send_resolves_with_data_witness :
  returned (send_over sample_toString (sample_net_recovering 0)
              (configure (constructor (sample_props None)) (HttpErrorHandler sample_handler))
              (sample_request "PATCH"))
  = Some (Response {| body := JObj [("success", JBool true)] |}).
Proof.
  unfold send_over.
  rewrite (send_resolves_with_data sample_toString (axios_dispatch (sample_net_recovering 0))
             (configure (constructor (sample_props None)) (HttpErrorHandler sample_handler))
             (sample_request "PATCH")
             [TransportAttempt 0 (request_call (sample_request "PATCH"))]
             (sample_response 200 (JObj [("success", JBool true)])) eq_refl eq_refl).
  reflexivity.
Defined.

(** X4. The body of the request reaches the axios instance only for POST, PUT
    and PATCH: for any other method, GET and DELETE among them, [send] does the
    same whatever the body is. *)
Theorem send_ignores_body (toString : option Query -> string)
    (axios_request : AxiosInstance -> AxiosCall -> M JsError AxiosResponse)
    (this : AxiosHttpClient) (request : HttpRequest) (data : JsValue) :
  ~ In (req_method request) ["POST"; "PUT"; "PATCH"]%string ->
  send toString axios_request this (with_body request data)
  = send toString axios_request this request.
Proof.
  intros Hmethod. unfold send, with_body, get, delete, post, put, patch, request_config.
  destruct request as [method url base hdrs query payload tmo sig]; simpl in *.
  destruct (String.eqb_spec method "GET"); [reflexivity|].
  destruct (String.eqb_spec method "DELETE"); [reflexivity|].
  destruct (String.eqb_spec method "POST") as [Heq|_]; [contradict Hmethod; auto|].
  destruct (String.eqb_spec method "PUT") as [Heq|_]; [contradict Hmethod; auto|].
  destruct (String.eqb_spec method "PATCH") as [Heq|_]; [contradict Hmethod; auto 10|].
  reflexivity.
Qed.

Lemma send_ignores_body_witness :
  send_over sample_toString (sample_net_recovering 0) (constructor (sample_props None))
    (with_body (sample_request "DELETE") (JObj [("message", JStr "Test")]))
  = send_over sample_toString (sample_net_recovering 0) (constructor (sample_props None))
      (sample_request "DELETE").
Proof.
  apply (send_ignores_body sample_toString (axios_dispatch (sample_net_recovering 0))
           (constructor (sample_props None)) (sample_request "DELETE")).
  simpl. intros [H|[H|[H|[]]]]; discriminate H.
Defined.

(** X5. A [send] has two ways to end: it throws, or the method is supported,
    the call resolved and [send] resolves with the data of that response.  It
    never resolves without a response. *)
Theorem send_throws_or_resolves (toString : option Query -> string)
    (axios_request : AxiosInstance -> AxiosCall -> M JsError AxiosResponse)
    (this : AxiosHttpClient) (request : HttpRequest) :
  (exists t, raised (send toString axios_request this request) = Some t)
  \/ (exists resp,
        supported (req_method request) = true
        /\ snd (axios_request (httpClient this) (request_call request)) = Normal resp
        /\ returned (send toString axios_request this request)
           = Some (Response {| body := data resp |})).
Proof.
  destruct (supported (req_method request)) eqn:Hsupported.
  - destruct (axios_request (httpClient this) (request_call request)) as [evs [resp|err]] eqn:Hrun.
    + right. exists resp. split; [reflexivity|]. split; [reflexivity|].
      rewrite (send_resolved toString axios_request this request evs resp Hsupported Hrun).
      reflexivity.
    + left.
      destruct (send_rejected toString axios_request this request evs err Hsupported Hrun)
        as (evs' & t & _ & ->).
      exists t. reflexivity.
  - left. rewrite (send_unsupported toString axios_request this request Hsupported).
    eexists. reflexivity.
Qed.

(** ** Failures without a response *)

(** X6. A rejection without a response whose message does not start with
    "timeout" becomes a [NetworkError] that carries the message of the
    rejection, or its code when it has no message, or nothing when it has
    neither; no line is logged, and the handler and the error constructors play
    no part.  [send] raises that error. *)
Theorem network_failure_classification (this : AxiosHttpClient) (e : AxiosError) :
  response e = None ->
  startsWith "timeout" (message e) = false ->
  let carried :=
    match message e with
    | Some text => Some text
    | None => code e
    end in
  rethrowError this (AxiosErr e) = ([], Throw (ThrownError (ErrorObj NetworkError carried)))
  /\ forall toString axios_request request,
       rejected axios_request this request (AxiosErr e) ->
       raised (send toString axios_request this request)
       = Some (ThrownError (ErrorObj NetworkError carried)).
Proof.
  intros Hresp Hprefix carried.
  pose proof (rethrowError_network this e Hresp Hprefix) as Hnetwork.
  split; [exact Hnetwork|].
  intros toString axios_request request Hrejected.
  rewrite (send_raises toString axios_request this request _ Hrejected), Hnetwork.
  reflexivity.
Qed.

Lemma network_failure_classification_witness :
  let refused :=
    {| message := None; code := Some "ECONNREFUSED"%string; stack := None; response := None |} in
  raised (send_over sample_toString (sample_net (Throw (AxiosErr refused)))
            (configure (constructor (sample_props None)) (HttpErrorHandler sample_handler))
            (sample_request "PUT"))
  = Some (ThrownError (ErrorObj NetworkError (Some "ECONNREFUSED"%string))).
Proof.
  intros refused.
  apply (proj2 (network_failure_classification
                  (configure (constructor (sample_props None)) (HttpErrorHandler sample_handler))
                  refused eq_refl eq_refl)
           sample_toString (axios_dispatch (sample_net (Throw (AxiosErr refused))))
           (sample_request "PUT")).
  split; reflexivity.
Defined.

(** X7. A caught value that is no axios error.  When it is [null] or
    [undefined], the classifier raises the type error of the engine, from
    reading [isAxiosError] on it.  When it is an object whose message is exactly
    "canceled", a [NetworkError] with that message is raised.  Any other object,
    and any boolean, number or string, is rethrown as it is.  Nothing is logged
    in any of these cases, the configuration plays no part, and [send] raises
    what the classifier raises. *)
Theorem foreign_rejection_classification (this : AxiosHttpClient) :
  (forall p,
     p = PNull \/ p = PUndefined ->
     rethrowError this (Primitive p) = ([], Throw (EngineTypeError "isAxiosError")))
  /\ (forall p,
        p <> PNull -> p <> PUndefined ->
        rethrowError this (Primitive p) = ([], Throw (ThrownError (Primitive p))))
  /\ (forall cls,
        rethrowError this (ErrorObj cls (Some "canceled"%string))
        = ([], Throw (ThrownError (ErrorObj NetworkError (Some "canceled"%string)))))
  /\ (forall cls msg,
        msg <> Some "canceled"%string ->
        rethrowError this (ErrorObj cls msg) = ([], Throw (ThrownError (ErrorObj cls msg))))
  /\ (forall toString axios_request request err,
        (forall e, err <> AxiosErr e) ->
        rejected axios_request this request err ->
        raised (send toString axios_request this request) = raised (rethrowError this err)).
Proof.
  split; [|split; [|split; [|split]]].
  - intros p [->| ->]; reflexivity.
  - intros p Hnull Hundefined. destruct p; try reflexivity; contradiction.
  - intros cls. rewrite rethrowError_other. reflexivity.
  - intros cls msg Hmsg. rewrite rethrowError_other.
    destruct msg as [text|]; [|reflexivity]. simpl.
    destruct (String.eqb_spec text "canceled") as [->|_]; [contradiction|reflexivity].
  - intros toString axios_request request err _ Hrejected.
    apply send_raises. exact Hrejected.
Qed.

Lemma foreign_rejection_classification_witness :
  let thrown := ErrorObj (OtherClass "TypeError") (Some "config is not valid"%string) in
  raised (send_over sample_toString (sample_net (Throw (Primitive PNull)))
            (constructor (sample_props None)) (sample_request "GET"))
  = Some (EngineTypeError "isAxiosError")
  /\ raised (send_over sample_toString (sample_net (Throw (Primitive (PStr "oops"))))
               (constructor (sample_props None)) (sample_request "GET"))
     = Some (ThrownError (Primitive (PStr "oops")))
  /\ raised (send_over sample_toString (sample_net (Throw thrown))
               (constructor (sample_props None)) (sample_request "POST"))
     = Some (ThrownError thrown).
Proof.
  intros thrown.
  destruct (foreign_rejection_classification (constructor (sample_props None)))
    as (Hnull & Hprimitive & _ & Hobject & Hsend).
  split; [|split].
  - unfold send_over.
    rewrite (Hsend sample_toString (axios_dispatch (sample_net (Throw (Primitive PNull))))
               (sample_request "GET") (Primitive PNull)
               ltac:(discriminate) (conj eq_refl eq_refl)).
    rewrite (Hnull PNull (or_introl eq_refl)). reflexivity.
  - unfold send_over.
    rewrite (Hsend sample_toString
               (axios_dispatch (sample_net (Throw (Primitive (PStr "oops")))))
               (sample_request "GET") (Primitive (PStr "oops"))
               ltac:(discriminate) (conj eq_refl eq_refl)).
    rewrite (Hprimitive (PStr "oops") ltac:(discriminate) ltac:(discriminate)).
    reflexivity.
  - unfold send_over.
    rewrite (Hsend sample_toString (axios_dispatch (sample_net (Throw thrown)))
               (sample_request "POST") thrown
               ltac:(discriminate) (conj eq_refl eq_refl)).
    unfold thrown.
    rewrite (Hobject (OtherClass "TypeError") (Some "config is not valid"%string)
               ltac:(discriminate)).
    reflexivity.
Defined.

(** * The controllable server of the tests *)

Lemma getBehaviors_run (n : nat) :
  forall this : HttpServer.ServerBehaviorContainer,
    HttpServer.getBehaviors n this
    = (map (fun i => nth i (HttpServer.behaviors this) (HttpServer.defaultBehavior this))
         (seq 0 n),
       {| HttpServer.behaviors := skipn n (HttpServer.behaviors this);
          HttpServer.defaultBehavior := HttpServer.defaultBehavior this |}).
Proof.
  induction n as [|n IH]; intros [queue fallback]; [reflexivity|].
  cbn [HttpServer.getBehaviors]. unfold HttpServer.getBehavior. simpl.
  destruct queue as [|first rest]; rewrite IH; simpl;
    rewrite <- seq_shift, map_map; [|reflexivity].
  rewrite skipn_nil. do 2 f_equal.
  apply map_ext. intros [|i]; reflexivity.
Qed.

Lemma serve_run (validHeaders : list (string * string) -> bool)
    (reqs : list HttpServer.IncomingMessage) :
  forall server : HttpServer.Server2,
    Forall (fun behavior => HttpServer.writeHead_accepts validHeaders behavior = true)
      (fst (HttpServer.getBehaviors (length reqs) (HttpServer.behaviorContainer server))) ->
    HttpServer.serve validHeaders server reqs
    = Some (map HttpServer.written_for
              (fst (HttpServer.getBehaviors (length reqs)
                      (HttpServer.behaviorContainer server))),
            {| HttpServer.behaviorContainer :=
                 snd (HttpServer.getBehaviors (length reqs)
                        (HttpServer.behaviorContainer server));
               HttpServer.capturedRequests :=
                 HttpServer.capturedRequests server ++ map HttpServer.noted reqs |}).
Proof.
  induction reqs as [|req rest IH]; intros [container captured] Haccepted; simpl in *.
  - rewrite app_nil_r. reflexivity.
  - unfold HttpServer.listener. simpl.
    destruct (HttpServer.getBehavior container) as [behavior container'].
    destruct (HttpServer.getBehaviors (length rest) container')
      as [others container''] eqn:Hothers.
    simpl in Haccepted. inversion Haccepted as [|? ? Hfirst Hrest]; subst.
    rewrite Hfirst. simpl.
    rewrite IH; simpl; rewrite Hothers; simpl; [|exact Hrest].
    rewrite <- app_assoc. reflexivity.
Qed.

Lemma accepted_in_order (validHeaders : list (string * string) -> bool)
    (this : HttpServer.ServerBehaviorContainer) (n : nat) :
  (forall i, (i < n)%nat ->
     HttpServer.writeHead_accepts validHeaders
       (nth i (HttpServer.behaviors this) (HttpServer.defaultBehavior this)) = true) ->
  Forall (fun behavior => HttpServer.writeHead_accepts validHeaders behavior = true)
    (fst (HttpServer.getBehaviors n this)).
Proof.
  intros Haccepted. rewrite getBehaviors_run. simpl.
  apply Forall_map, Forall_seq. intros i Hi. apply Haccepted. lia.
Qed.

(** X8. After [setBehaviors], the calls of [getBehavior] hand out the given
    behaviours one by one in their order, each once, and the default behaviour
    from then on; what was queued before is gone, and the default behaviour is
    never changed. *)
Theorem behaviours_in_order (this : HttpServer.ServerBehaviorContainer)
    (given : list HttpServer.HttpServerBehavior) (n : nat) :
  HttpServer.getBehaviors n (HttpServer.setBehaviors this given)
  = (map (fun i => nth i given (HttpServer.defaultBehavior this)) (seq 0 n),
     {| HttpServer.behaviors := skipn n given;
        HttpServer.defaultBehavior := HttpServer.defaultBehavior this |}).
Proof. rewrite getBehaviors_run. reflexivity. Qed.

(** X9. As long as [writeHead] accepts the behaviours in use, what the
    listener writes depends on the queue of behaviours alone, never on the
    requests: for the request of rank [i] since [setBehaviors] it waits and
    writes as the behaviour of rank [i] says, and as the default says once the
    queue is used up.  A server that was given no behaviour writes status 200,
    no header and an empty body, with no delay, for every request. *)
Theorem answers_follow_behaviours (validHeaders : list (string * string) -> bool)
    (server : HttpServer.Server2) (given : list HttpServer.HttpServerBehavior)
    (reqs : list HttpServer.IncomingMessage) :
  ((forall i, (i < length reqs)%nat ->
      HttpServer.writeHead_accepts validHeaders
        (nth i given (HttpServer.defaultBehavior (HttpServer.behaviorContainer server)))
      = true) ->
   fst <$> HttpServer.serve validHeaders (HttpServer.controlled_setBehaviors server given) reqs
   = Some (map (fun i =>
                  HttpServer.written_for
                    (nth i given
                       (HttpServer.defaultBehavior (HttpServer.behaviorContainer server))))
             (seq 0 (length reqs))))
  /\ (validHeaders [] = true ->
      fst <$> HttpServer.serve validHeaders HttpServer.server2 reqs
      = Some (map (fun _ =>
                     {| HttpServer.waited := 0;
                        HttpServer.w_statusCode := 200;
                        HttpServer.w_header := [];
                        HttpServer.w_body := EmptyString |}) reqs)).
Proof.
  split.
  - intros Haccepted.
    rewrite serve_run by (apply accepted_in_order; exact Haccepted).
    simpl. rewrite getBehaviors_run. simpl. rewrite map_map. reflexivity.
  - intros Hempty.
    rewrite serve_run.
    + simpl. rewrite getBehaviors_run. simpl. rewrite map_map. f_equal.
      generalize 0%nat.
      induction reqs as [|req rest IH]; intros first; [reflexivity|].
      simpl. rewrite IH. destruct first; reflexivity.
    + apply accepted_in_order. intros i _. simpl.
      unfold HttpServer.writeHead_accepts.
      destruct i; simpl; exact Hempty.
Qed.

Lemma answers_follow_behaviours_witness :
  let failing :=
    {| HttpServer.statusCode := 500;
       HttpServer.header := [("Content-Type", "application/json")]%string;
       HttpServer.body := "{}"%string;
       HttpServer.delay := Some 100 |} in
  let req :=
    {| HttpServer.in_url := Some "/test"%string;
       HttpServer.in_method := Some "GET"%string;
       HttpServer.in_headers := [];
       HttpServer.in_payload := EmptyString |} in
  fst <$> HttpServer.serve (fun _ => true)
            (HttpServer.controlled_setBehaviors HttpServer.server2 [failing]) [req; req]
  = Some [HttpServer.written_for failing;
          {| HttpServer.waited := 0;
             HttpServer.w_statusCode := 200;
             HttpServer.w_header := [];
             HttpServer.w_body := EmptyString |}]
  /\ fst <$> HttpServer.serve (fun _ => true) HttpServer.server2 [req]
     = Some [{| HttpServer.waited := 0;
                HttpServer.w_statusCode := 200;
                HttpServer.w_header := [];
                HttpServer.w_body := EmptyString |}].
Proof.
  intros failing req. split.
  - apply (proj1 (answers_follow_behaviours (fun _ => true) HttpServer.server2
                    [failing] [req; req])).
    intros [|[|i]] Hi; reflexivity.
  - apply (proj2 (answers_follow_behaviours (fun _ => true) HttpServer.server2 [] [req])).
    reflexivity.
Defined.



(** * A client that was never configured *)

(** X11. On a client that was constructed and never configured, an
    application error whose body is a first-party envelope is raised as a plain
    error with the message "name: message", at any status, after one warning
    line that says no service error constructor was provided. *)
Theorem unconfigured_client_envelope (props : AxiosHttpClientProps) (e : AxiosError)
    (resp : AxiosResponse) (fields : list (string * JsValue)) (name text : string) :
  response e = Some resp ->
  data resp = JObj fields ->
  lookup_prop "name" fields = JStr name ->
  lookup_prop "message" fields = JStr text ->
  rethrowError (constructor props) (AxiosErr e)
  = ([LogWarn ("Received service error but no service error constructor it provided. "
               +:+ name +:+ ": " +:+ text)],
     Throw (ThrownError (ErrorObj PlainError (Some (name +:+ ": " +:+ text))))).
Proof.
  intros Hresp Hdata Hname Htext.
  unfold rethrowError, constructor. simpl. rewrite Hresp, Hdata. simpl.
  rewrite Hname, Htext. reflexivity.
Qed.

Lemma unconfigured_client_envelope_witness :
  raised (rethrowError (constructor (sample_props (Some 2)))
            (AxiosErr (sample_failure 403 sample_envelope)))
  = Some (ThrownError (ErrorObj PlainError (Some "SystemError: mockErrorMessage"%string))).
Proof.
  rewrite (unconfigured_client_envelope (sample_props (Some 2))
             (sample_failure 403 sample_envelope) (sample_response 403 sample_envelope)
             [("name", JStr "SystemError"); ("message", JStr "mockErrorMessage")]
             "SystemError" "mockErrorMessage" eq_refl eq_refl eq_refl eq_refl).
  reflexivity.
Defined.
